(** * Shallow embedding of src/src/server.ts (Data Steward MCP server)

    The TypeScript class [MCPServer] is modelled piece by piece:
    - JSON values as they reach the handlers ([jsval]), with JavaScript
      truthiness, property access, [String(...)] and, for strings,
      [Number(...)];
    - thrown exceptions as the [Throw] branch of a small result monad;
    - the call-tool handler and [handleGetDDLTool];
    - the [transports] registry, a plain JavaScript object used as a map:
      a gmap of own properties plus the members inherited from
      [Object.prototype];
    - [handleGetRequest] / [handlePostRequest], the periodic catalog
      refresh and [streamMessages].
    Library code (the MCP SDK, [pg], [crypto.randomUUID], [Date]) enters as
    Section variables. *)

From stdpp Require Import base gmap strings list pretty.
From Stdlib Require Import ZArith Ascii.

(* ------------------------------------------------------------------ *)
(** ** JavaScript values *)

#[local] Set Warnings "-register-all".

Inductive jsval : Type :=
  | JUndef
  | JNull
  | JBool (b : bool)
  | JNum (z : Z)
  | JFrac (m e : Z)
  | JInf (neg : bool)
  | JNaN
  | JStr (s : string)
  | JArr (xs : list jsval)
  | JObj (fields : list (string * jsval)).

(** Numbers are IEEE 754 doubles: [JNum z] is the number whose value is
    the integer [z] (both zeros are [JNum 0]: this code never tells them
    apart, both are falsy and print as "0"); [JFrac m e] is the number
    [m * 2^e] when it is not an integer; [JInf neg] is [Infinity], or
    [-Infinity] when [neg]; [JNaN] is [NaN]. *)

(** [!!v] *)
Definition truthy (v : jsval) : bool :=
  match v with
  | JUndef | JNull | JNaN => false
  | JBool b => b
  | JNum z => negb (Z.eqb z 0)
  | JFrac m _ => negb (Z.eqb m 0)
  | JInf _ => true
  | JStr s => negb (String.eqb s EmptyString)
  | JArr _ | JObj _ => true
  end.

(** [a || b] *)
Definition js_or (a b : jsval) : jsval := if truthy a then a else b.

Definition nl : string := String (Ascii.ascii_of_nat 10) EmptyString.

(* ------------------------------------------------------------------ *)
(** ** Numbers: [Number(s)] for a string and [Number::toString]

    Strings are byte strings; characters outside ASCII are UTF-8 encoded,
    as Node decodes [process.env]. *)

Section Numbers.
Local Open Scope Z_scope.

(** binary64: the exponent of the subnormals, and the greatest [e] of a
    finite [m * 2^e] with [2^52 <= m < 2^53]. *)
Definition emin : Z := -1074.
Definition emax : Z := 971.

(** [n / d] rounded to an integer, ties to even ([n >= 0], [d > 0]). *)
Definition div_round_even (n d : Z) : Z :=
  let q := n / d in
  let r := n mod d in
  if 2 * r <? d then q
  else if d <? 2 * r then q + 1
  else if Z.even q then q else q + 1.

(** [(a, b)] with [a / b = n / (d * 2^e)]. *)
Definition scale2 (n d e : Z) : Z * Z :=
  if 0 <=? e then (n, d * 2 ^ e) else (n * 2 ^ (- e), d).

(** A positive real rounded to binary64: zero, [m * 2^e], or overflow. *)
Inductive rounded := RZero | RFin (m e : Z) | RInf.

(** The rational [n / d] ([n, d > 0]) rounded to the nearest double, ties
    to even: [e0] puts [n / (d * 2^e0)] in [(2^51, 2^53)], [e1] in
    [[2^52, 2^53)], [e2] clamps to the subnormal exponent; a significand
    rounded up to [2^53] moves to the next binade; past [emax] the value
    overflows to [Infinity]. *)
Definition round_double (n d : Z) : rounded :=
  let e0 := Z.log2 n - Z.log2 d - 52 in
  let e1 := (let '(a, b) := scale2 n d e0 in if a <? 2 ^ 52 * b then e0 - 1 else e0) in
  let e2 := Z.max e1 emin in
  let m := (let '(a, b) := scale2 n d e2 in div_round_even a b) in
  let '(m', e3) := if m =? 2 ^ 53 then (2 ^ 52, e2 + 1) else (m, e2) in
  if m' =? 0 then RZero else if emax <? e3 then RInf else RFin m' e3.

(** The decimal [D * 10^E] ([D >= 0]) rounded to a double.  The two middle
    tests only short-cut values far out of range: [D * 10^E >= 10^401]
    overflows, and [D * 10^E < 2^(log2 D + 1 + 3 E) <= 2^-1076] is below
    half the least subnormal. *)
Definition round_decimal (D E : Z) : rounded :=
  if D =? 0 then RZero
  else if 400 <? E then RInf
  else if 3 * E + Z.log2 D + 1 <=? -1076 then RZero
  else if 0 <=? E then round_double (D * 10 ^ E) 1 else round_double D (10 ^ (- E)).

(** The number [m * 2^e] as a [jsval]. *)
Fixpoint dyadic_fuel (fuel : nat) (m e : Z) : jsval :=
  match fuel with
  | O => JFrac m e
  | S f => if 0 <=? e then JNum (m * 2 ^ e)
           else if Z.even m then dyadic_fuel f (m / 2) (e + 1) else JFrac m e
  end.
Definition dyadic (m e : Z) : jsval := dyadic_fuel (S (Z.to_nat (- e))) m e.

(** A rounded value with its sign. *)
Definition of_rounded (neg : bool) (r : rounded) : jsval :=
  match r with
  | RZero => JNum 0
  | RInf => JInf neg
  | RFin m e => dyadic (if neg then - m else m) e
  end.

(** The length in bytes of the StrWhiteSpaceChar the string starts with
    (0 if none): TAB, LF, VT, FF, CR, SPACE, U+00A0, U+1680,
    U+2000-U+200A, U+2028, U+2029, U+202F, U+205F, U+3000, U+FEFF. *)
Definition ws_len (s : list Ascii.ascii) : nat :=
  match s with
  | [] => 0
  | a :: r =>
      let n := Ascii.nat_of_ascii a in
      if ((9 <=? n) && (n <=? 13))%nat || (n =? 32)%nat then 1
      else match r with
        | [] => 0
        | b :: r2 =>
            let m := Ascii.nat_of_ascii b in
            if (n =? 194)%nat && (m =? 160)%nat then 2
            else match r2 with
              | [] => 0
              | c :: _ =>
                  let k := Ascii.nat_of_ascii c in
                  if ((n =? 225) && (m =? 154) && (k =? 128)
                      || (n =? 226) && (m =? 128)
                         && (((128 <=? k) && (k <=? 138)) || (k =? 168) || (k =? 169)
                             || (k =? 175))
                      || (n =? 226) && (m =? 129) && (k =? 159)
                      || (n =? 227) && (m =? 128) && (k =? 128)
                      || (n =? 239) && (m =? 187) && (k =? 191))%nat
                  then 3 else 0
              end
        end
  end.

(** Drops the leading white space ([fuel] is the length). *)
Fixpoint trim_start (fuel : nat) (s : list Ascii.ascii) : list Ascii.ascii :=
  match fuel with
  | O => s
  | S f => match ws_len s with O => s | n => trim_start f (drop n s) end
  end.

(** The offset just after the last character that is not white space,
    reading the characters from the left. *)
Fixpoint content_end (fuel : nat) (s : list Ascii.ascii) (pos last : nat) : nat :=
  match fuel, s with
  | O, _ | _, [] => last
  | S f, _ :: _ =>
      match ws_len s with
      | O => content_end f (drop 1 s) (S pos) (S pos)
      | n => content_end f (drop n s) (pos + n) last
      end
  end.

(** [String.prototype.trim]. *)
Definition js_trim (s : list Ascii.ascii) : list Ascii.ascii :=
  let s1 := trim_start (length s) s in
  take (content_end (length s1) s1 0 0) s1.

Definition is_digit (c : Ascii.ascii) : bool :=
  let n := Ascii.nat_of_ascii c in ((48 <=? n) && (n <=? 57))%nat.

(** The longest prefix of decimal digits, and the rest. *)
Fixpoint span_digits (s : list Ascii.ascii) : list Ascii.ascii * list Ascii.ascii :=
  match s with
  | c :: r => if is_digit c then let '(d, r') := span_digits r in (c :: d, r') else ([], s)
  | [] => ([], [])
  end.

Definition digits_Z (ds : list Ascii.ascii) : Z :=
  fold_left (fun acc c => 10 * acc + Z.of_nat (Ascii.nat_of_ascii c - 48)) ds 0.

(** An optional ExponentPart ([e] or [E], a sign, digits) ending the
    string: its value. *)
Definition parse_exponent (s : list Ascii.ascii) : option Z :=
  match s with
  | [] => Some 0
  | c :: r =>
      if Ascii.eqb c "e" || Ascii.eqb c "E" then
        let '(sgn, r1) := match r with
                          | "+"%char :: r1 => (1, r1)
                          | "-"%char :: r1 => (-1, r1)
                          | _ => (1, r)
                          end in
        match span_digits r1 with
        | ((_ :: _) as ds, []) => Some (sgn * digits_Z ds)
        | _ => None
        end
      else None
  end.

(** StrUnsignedDecimalLiteral: [Some None] for [Infinity], [Some (Some (D,
    E))] for the value [D * 10^E] of [digits], [digits.digits],
    [.digits], each with an optional exponent. *)
Definition parse_unsigned_decimal (s : list Ascii.ascii) : option (option (Z * Z)) :=
  if String.eqb (String.string_of_list_ascii s) "Infinity" then Some None
  else
    let '(ip, r1) := span_digits s in
    match r1 with
    | "."%char :: r2 =>
        let '(fp, r3) := span_digits r2 in
        match ip, fp with
        | [], [] => None
        | _, _ => x ← parse_exponent r3;
                  Some (Some (digits_Z (ip ++ fp), x - Z.of_nat (length fp)))
        end
    | _ =>
        match ip with
        | [] => None
        | _ => x ← parse_exponent r1; Some (Some (digits_Z ip, x))
        end
    end.

(** The value of a digit (0-9, then a-z or A-Z from 10) below base [b]. *)
Definition digit_in_base (b : Z) (c : Ascii.ascii) : option Z :=
  let n := Z.of_nat (Ascii.nat_of_ascii c) in
  let v := if (48 <=? n) && (n <=? 57) then n - 48
           else if (97 <=? n) && (n <=? 122) then n - 87
           else if (65 <=? n) && (n <=? 90) then n - 55
           else b in
  if v <? b then Some v else None.

Fixpoint base_value (b acc : Z) (s : list Ascii.ascii) : option Z :=
  match s with
  | [] => Some acc
  | c :: r => v ← digit_in_base b c; base_value b (b * acc + v) r
  end.

(** NonDecimalIntegerLiteral: [0x], [0o] or [0b] (either case) and at
    least one digit of that base; no sign. *)
Definition parse_nondecimal (s : list Ascii.ascii) : option Z :=
  match s with
  | "0"%char :: p :: ((_ :: _) as ds) =>
      let b := if Ascii.eqb p "x" || Ascii.eqb p "X" then 16
               else if Ascii.eqb p "o" || Ascii.eqb p "O" then 8
               else if Ascii.eqb p "b" || Ascii.eqb p "B" then 2 else 0 in
      if b =? 0 then None else base_value b 0 ds
  | _ => None
  end.

(** [Number(s)] (StringToNumber): white space around the literal is
    ignored, an empty literal is 0, a decimal literal may be signed, and a
    string that is no StringNumericLiteral is [NaN].  The value is
    rounded to the nearest double, as V8 does. *)
Definition string_to_number (s : string) : jsval :=
  let t := js_trim (String.list_ascii_of_string s) in
  match t with
  | [] => JNum 0
  | _ =>
      let '(neg, u) := match t with
                       | "+"%char :: u => (false, u)
                       | "-"%char :: u => (true, u)
                       | _ => (false, t)
                       end in
      match parse_unsigned_decimal u with
      | Some None => JInf neg
      | Some (Some (D, E)) => of_rounded neg (round_decimal D E)
      | None =>
          match parse_nondecimal t with
          | Some V => of_rounded false (round_decimal V 0)
          | None => JNaN
          end
      end
  end.

(** The number of decimal digits of [z > 0]. *)
Fixpoint ndigits_fuel (fuel : nat) (z : Z) : Z :=
  match fuel with O => 1 | S f => if z <? 10 then 1 else 1 + ndigits_fuel f (z / 10) end.
Definition ndigits (z : Z) : Z := ndigits_fuel (Z.to_nat (Z.log2 z)) z.

(** [N / D >= 10^j] *)
Definition ge_pow10 (N D j : Z) : bool :=
  if 0 <=? j then D * 10 ^ j <=? N else D <=? N * 10 ^ (- j).

(** [floor (log10 (N / D))] for [N, D > 0]: [N / D] lies strictly between
    [10^(j-1)] and [10^(j+1)]. *)
Definition floor_log10 (N D : Z) : Z :=
  let j := ndigits N - ndigits D in if ge_pow10 N D j then j else j - 1.

(** Whether the rounded value is [N / D]. *)
Definition rounds_to (r : rounded) (N D : Z) : bool :=
  match r with
  | RFin m e => let '(a, b) := scale2 m 1 (- e) in a * D =? N * b
  | _ => false
  end.

(** For [x = N / D] with [10^L <= x < 10^(L+1)]: the [k]-digit [s] with
    [s * 10^p <= x < (s + 1) * 10^p] ([p = L - k + 1]), the remainder
    [x / 10^p - s] as [r / TD], and [TD]. *)
Definition digits_at (N D L k : Z) : Z * Z * Z :=
  let p := L - k + 1 in
  let '(TN, TD) := if 0 <=? p then (N, D * 10 ^ p) else (N * 10 ^ (- p), D) in
  (TN / TD, TN mod TD, TD).

(** [(s, k, n)] of Number::toString for the [k]-digit candidate [s]: [n]
    is the decimal exponent, [s * 10^(n-k)] the value ([10^k] is written
    [10^(k-1)] one place higher). *)
Definition pick (L k s : Z) : Z * Z * Z :=
  if s =? 10 ^ k then (10 ^ (k - 1), k, L + 2) else (s, k, L + 1).

(** The [k]-digit decimals next to [x] that round to [x]; of two, the
    closer to [x], and of two as close, the even one. *)
Definition shortest_at (N D L k : Z) : option (Z * Z * Z) :=
  let '(lo, r, TD) := digits_at N D L k in
  let p := L - k + 1 in
  let ok s := rounds_to (round_decimal s p) N D in
  match ok lo, ok (lo + 1) with
  | true, true =>
      Some (pick L k (if 2 * r <? TD then lo else if TD <? 2 * r then lo + 1
                      else if Z.even lo then lo else lo + 1))
  | true, false => Some (pick L k lo)
  | false, true => Some (pick L k (lo + 1))
  | false, false => None
  end.

(** The least [k] that has such a decimal; 17 digits always suffice for a
    double, so the case without fuel is never reached for one. *)
Fixpoint shortest (N D L k : Z) (fuel : nat) : Z * Z * Z :=
  match fuel with
  | O => let '(lo, _, _) := digits_at N D L 17 in pick L 17 lo
  | S f => match shortest_at N D L k with
           | Some skn => skn
           | None => shortest N D L (k + 1) f
           end
  end.

Fixpoint zeros (n : nat) : string :=
  match n with O => EmptyString | S k => String "0" (zeros k) end.

(** Steps 6-10 of Number::toString for the digits of [s], [k] and [n]. *)
Definition format_number (s k n : Z) : string :=
  let ds := pretty s in
  if (k <=? n) && (n <=? 21) then ds +:+ zeros (Z.to_nat (n - k))
  else if (0 <? n) && (n <=? 21) then
    String.substring 0 (Z.to_nat n) ds +:+ "." +:+ String.substring (Z.to_nat n) (Z.to_nat (k - n)) ds
  else if (-6 <? n) && (n <=? 0) then "0." +:+ zeros (Z.to_nat (- n)) +:+ ds
  else
    let e := n - 1 in
    let es := (if 0 <=? e then "+" else "-") +:+ pretty (Z.abs e) in
    if k =? 1 then ds +:+ "e" +:+ es
    else String.substring 0 1 ds +:+ "." +:+ String.substring 1 (Z.to_nat (k - 1)) ds
         +:+ "e" +:+ es.

(** Number::toString of the positive number [N / D]. *)
Definition positive_to_string (N D : Z) : string :=
  let L := floor_log10 N D in
  let '(s, k, n) := shortest N D L 1 17 in
  format_number s k n.

(** Number::toString of the finite number [m * 2^e]. *)
Definition number_to_string (m e : Z) : string :=
  if m =? 0 then "0"
  else
    let '(a, b) := scale2 (Z.abs m) 1 (- e) in
    (if m <? 0 then "-" else "") +:+ positive_to_string a b.

End Numbers.

(** [String(v)], as used by template literals. *)
Fixpoint js_String (v : jsval) : string :=
  match v with
  | JUndef => "undefined"
  | JNull => "null"
  | JBool b => if b then "true" else "false"
  | JNum z => number_to_string z 0
  | JFrac m e => number_to_string m e
  | JInf neg => if neg then "-Infinity" else "Infinity"
  | JNaN => "NaN"
  | JStr s => s
  | JArr xs =>
      (fix join (l : list jsval) : string :=
         match l with
         | [] => EmptyString
         | x :: r =>
             let ex := match x with JUndef | JNull => EmptyString | _ => js_String x end in
             match r with [] => ex | _ => ex +:+ "," +:+ join r end
         end) xs
  | JObj _ => "[object Object]"
  end.

(* ------------------------------------------------------------------ *)
(** ** Exceptions and the result monad *)

Inductive err_kind := KError | KTypeError.

Record exn := mk_exn { ex_kind : err_kind; ex_message : string }.

Definition err_name (k : err_kind) : string :=
  match k with KError => "Error" | KTypeError => "TypeError" end.

(** [String(err)] for an [Error] instance. *)
Definition exn_to_string (e : exn) : string :=
  if String.eqb (ex_message e) EmptyString then err_name (ex_kind e)
  else err_name (ex_kind e) +:+ ": " +:+ ex_message e.

(** [new Error(msg)] *)
Definition Error (msg : string) : exn := mk_exn KError msg.
Definition TypeError (msg : string) : exn := mk_exn KTypeError msg.

(** A computation either returns or throws. *)
Inductive result (A : Type) : Type :=
  | Ok (a : A)
  | Throw (e : exn).
Arguments Ok {A} a.
Arguments Throw {A} e.

Global Instance result_ret : MRet result := fun _ a => Ok a.
Global Instance result_bind : MBind result := fun A B f m =>
  match m with Ok a => f a | Throw e => Throw e end.

(** [v.k]: reading a property of [null] or [undefined] throws; JSON
    objects keep the last duplicate key; other values have none of the
    properties read by this code. *)
Definition get_field (v : jsval) (k : string) : result jsval :=
  match v with
  | JUndef | JNull =>
      Throw (TypeError ("Cannot read properties of " +:+ js_String v
                        +:+ " (reading '" +:+ k +:+ "')"))
  | JObj fs =>
      match List.find (fun kv => String.eqb (fst kv) k) (rev fs) with
      | Some kv => Ok (snd kv)
      | None => Ok JUndef
      end
  | _ => Ok JUndef
  end.

Definition ascii_lower (c : Ascii.ascii) : Ascii.ascii :=
  let n := Ascii.nat_of_ascii c in
  if (65 <=? n)%nat && (n <=? 90)%nat then Ascii.ascii_of_nat (n + 32) else c.

Fixpoint string_lower (s : string) : string :=
  match s with
  | EmptyString => EmptyString
  | String c r => String (ascii_lower c) (string_lower r)
  end.

(** [v.toLowerCase()]: only strings have the method.  ASCII letters are
    lowered and other bytes kept; the result is only compared with
    "postgresql" and "postgres", and JavaScript lowers no non-ASCII
    character to one of their letters, so the comparisons come out as in
    JavaScript. *)
Definition toLowerCase (v : jsval) (what : string) : result string :=
  match v with
  | JStr s => Ok (string_lower s)
  | JUndef | JNull =>
      Throw (TypeError ("Cannot read properties of " +:+ js_String v
                        +:+ " (reading 'toLowerCase')"))
  | _ => Throw (TypeError (what +:+ ".toLowerCase is not a function"))
  end.

(** [Number(v)] for an environment variable: [undefined] is [NaN]. *)
Definition js_Number (v : option string) : jsval :=
  match v with
  | None => JNaN
  | Some s => string_to_number s
  end.

Definition dq : string := String (Ascii.ascii_of_nat 34) EmptyString.

(* ------------------------------------------------------------------ *)
(** ** The tool handlers (setupTools, handleGetDDLTool) *)

Record DBConnectionInfo := mk_conn {
  host : jsval; port : jsval; user : jsval; password : jsval; database : jsval }.

(** A row of [information_schema.columns] as selected by the DDL query. *)
Record column_row := mk_row {
  column_name : jsval; data_type : jsval; character_maximum_length : jsval }.

(** [{ content: [{ type: "text", text }, ...] }]: the texts in order. *)
Record call_tool_result := mk_tool_result { content : list string }.

(** [request.params] of a [tools/call] request, after the SDK's schema
    check: [name] is a string, [arguments] an optional JSON object. *)
Record call_tool_params := mk_params {
  name : string; arguments : option (list (string * jsval)) }.

Definition getDDLToolName : string := "get_database_table_ddl".

Definition msg_missing : string :=
  "Missing required parameters: database_type, connection_info, or table_name.".
Definition msg_unsupported (database_type : jsval) : string :=
  "Unsupported database type: " +:+ js_String database_type
  +:+ ". Only PostgreSQL is supported.".
Definition msg_incomplete : string :=
  "Database connection info is incomplete. Please provide all required fields or set them in .env.".
Definition msg_failed (ddlError : string) : string :=
  "Failed to retrieve DDL: " +:+ ddlError.

(** [err.message || String(err)] *)
Definition ddl_error_text (err : exn) : string :=
  if String.eqb (ex_message err) EmptyString then exn_to_string err
  else ex_message err.

Fixpoint dictionary_lines (rows : list column_row) : string :=
  match rows with
  | [] => EmptyString
  | row :: rest =>
      "- " +:+ js_String (column_name row) +:+ ": " +:+ js_String (data_type row)
      +:+ (if truthy (character_maximum_length row)
           then "(" +:+ js_String (character_maximum_length row) +:+ ")"
           else EmptyString)
      +:+ nl +:+ dictionary_lines rest
  end.

Definition data_dictionary (table_name : jsval) (ddlRows : list column_row) : string :=
  "Table " +:+ dq +:+ js_String table_name +:+ dq +:+ " columns:" +:+ nl
  +:+ match ddlRows with
      | [] => "No columns found."
      | _ => dictionary_lines ddlRows
      end.

Section Executor.

(** [process.env] *)
Variable env : string -> option string.
(** [new Client(conn)], [connect], the column query for [table_name] and
    [end]: the rows, or the error the client raised. *)
Variable pg_run : DBConnectionInfo -> jsval -> result (list column_row).
(** [JSON.stringify(ddlRows, null, 2)] *)
Variable json_rows : list column_row -> string.

Definition env_str (k : string) : jsval :=
  match env k with Some s => JStr s | None => JUndef end.

(** The [conn] object: each field of [connection_info], or the
    environment's value when the field is falsy. *)
Definition conn_of (connection_info : jsval) : result DBConnectionInfo :=
  h ← get_field connection_info "host";
  p ← get_field connection_info "port";
  u ← get_field connection_info "user";
  pw ← get_field connection_info "password";
  db ← get_field connection_info "database";
  Ok {| host := js_or h (env_str "PGHOST");
        port := js_or p (js_Number (env "PGPORT"));
        user := js_or u (env_str "PGUSER");
        password := js_or pw (env_str "PGPASSWORD");
        database := js_or db (env_str "PGDATABASE") |}.

Definition conn_complete (conn : DBConnectionInfo) : bool :=
  truthy (host conn) && truthy (port conn) && truthy (user conn)
  && truthy (password conn) && truthy (database conn).

Definition handleGetDDLTool (args : jsval) : result call_tool_result :=
  database_type ← get_field args "database_type";
  connection_info ← get_field args "connection_info";
  table_name ← get_field args "table_name";
  if negb (truthy database_type) || negb (truthy connection_info)
     || negb (truthy table_name)
  then Ok (mk_tool_result [msg_missing])
  else
    lower ← toLowerCase database_type "database_type";
    if negb (String.eqb lower "postgresql") && negb (String.eqb lower "postgres")
    then Ok (mk_tool_result [msg_unsupported database_type])
    else
      conn ← conn_of connection_info;
      if negb (truthy (host conn)) || negb (truthy (port conn))
         || negb (truthy (user conn)) || negb (truthy (password conn))
         || negb (truthy (database conn))
      then Ok (mk_tool_result [msg_incomplete])
      else
        let '(ddlRows, ddlError) :=
          match pg_run conn table_name with
          | Ok rows => (rows, None)
          | Throw err => ([], Some (ddl_error_text err))
          end in
        match ddlError with
        | Some e =>
            if truthy (JStr e) then Ok (mk_tool_result [msg_failed e])
            else Ok (mk_tool_result
                       ["DDL (columns):" +:+ nl +:+ json_rows ddlRows;
                        "Data Dictionary:" +:+ nl +:+ data_dictionary table_name ddlRows])
        | None =>
            Ok (mk_tool_result
                  ["DDL (columns):" +:+ nl +:+ json_rows ddlRows;
                   "Data Dictionary:" +:+ nl +:+ data_dictionary table_name ddlRows])
        end.

(** The [CallToolRequestSchema] handler registered in [setupTools]. *)
Definition call_tool_handler (params : call_tool_params) : result call_tool_result :=
  match arguments params with
  | None => Throw (Error "arguments undefined")
  | Some args =>
      if String.eqb (name params) EmptyString then Throw (Error "tool name undefined")
      else if String.eqb (name params) getDDLToolName then handleGetDDLTool (JObj args)
      else Throw (Error "Tool not found")
  end.

End Executor.

(** JSON-RPC messages written back on a channel. *)
Inductive envelope :=
  | EResult (rid : jsval) (r : call_tool_result)
  | EError (rid : jsval) (code : Z) (message : string).

Definition InternalError : Z := (-32603)%Z.

(** The SDK's [Protocol] answers a request with the handler's value as a
    result; a handler that throws an [Error] without a numeric [code] is
    answered with a JSON-RPC error [{ code: InternalError, message:
    error.message }]. *)
Definition protocol_reply (rid : jsval) (r : result call_tool_result) : envelope :=
  match r with
  | Ok v => EResult rid v
  | Throw e => EError rid InternalError (ex_message e)
  end.

Definition is_result (e : envelope) : bool :=
  match e with EResult _ _ => true | EError _ _ _ => false end.

(* ------------------------------------------------------------------ *)
(** ** Notifications, tool catalog, streaming state *)

(** A JSON-RPC notification ([jsonrpc: "2.0"] is added on sending). *)
Record notification := mk_notification { method : string; nparams : jsval }.

Definition list_changed : notification :=
  mk_notification "notifications/tools/list_changed" JUndef.

Definition log_info (data : string) : notification :=
  mk_notification "notifications/message"
    (JObj [("level", JStr "info"); ("data", JStr data)]).

Definition msg_established : notification := log_info "SSE Connection established".
Definition msg_complete : notification := log_info "Streaming complete!".

Record tool_descriptor := mk_tool {
  tool_name : string; description : string; inputSchema : jsval }.

Definition getDDLTool : tool_descriptor :=
  mk_tool getDDLToolName
    "Retrieves the DDL for a specified table and generates a human-readable data dictionary using AI reasoning."
    (JObj [("type", JStr "object");
           ("properties", JObj [
              ("database_type", JObj [("type", JStr "string");
                                      ("description", JStr "Type of database (e.g., PostgreSQL)")]);
              ("connection_info", JObj [
                 ("type", JStr "object");
                 ("properties", JObj [("host", JObj [("type", JStr "string")]);
                                      ("port", JObj [("type", JStr "number")]);
                                      ("user", JObj [("type", JStr "string")]);
                                      ("password", JObj [("type", JStr "string")]);
                                      ("database", JObj [("type", JStr "string")])]);
                 ("required", JArr [JStr "host"; JStr "port"; JStr "user";
                                    JStr "password"; JStr "database"])]);
              ("table_name", JObj [("type", JStr "string");
                                   ("description", JStr "Name of the table")])]);
           ("required", JArr [JStr "database_type"; JStr "connection_info";
                              JStr "table_name"])]).

(** A [StreamableHTTPServerTransport] object, by identity. *)
Record transport := mk_transport { tr_obj : nat }.

Global Instance transport_eq_dec : EqDecision transport.
Proof. solve_decision. Qed.

(** The state of one [streamMessages] run: the [messageCount] closed over
    by the interval callback and whether the interval is still set. *)
Record stream_state := mk_stream {
  st_transport : transport; messageCount : nat; interval_set : bool }.

(** The [MCPServer] instance and what it has done so far. *)
Record server := mk_server {
  transports : gmap string transport;   (** own properties of [this.transports] *)
  uuid_draws : nat;                     (** calls of [randomUUID] so far *)
  next_obj : nat;                       (** identities of new transports *)
  catalog : list tool_descriptor;       (** the list-tools handler's answer *)
  streams : list stream_state;          (** intervals started by [streamMessages] *)
  outbox : list (transport * notification * bool);
      (** every [sendNotification] call: channel, message, and whether
          [transport.send] succeeded *)
  errlog : list exn                     (** [console.error] *)
}.

Definition set_transports (st : server) m : server :=
  mk_server m (uuid_draws st) (next_obj st) (catalog st) (streams st) (outbox st) (errlog st).
Definition set_uuid_draws (st : server) n : server :=
  mk_server (transports st) n (next_obj st) (catalog st) (streams st) (outbox st) (errlog st).
Definition set_next_obj (st : server) n : server :=
  mk_server (transports st) (uuid_draws st) n (catalog st) (streams st) (outbox st) (errlog st).
Definition set_catalog (st : server) c : server :=
  mk_server (transports st) (uuid_draws st) (next_obj st) c (streams st) (outbox st) (errlog st).
Definition set_streams (st : server) s : server :=
  mk_server (transports st) (uuid_draws st) (next_obj st) (catalog st) s (outbox st) (errlog st).
Definition set_outbox (st : server) o : server :=
  mk_server (transports st) (uuid_draws st) (next_obj st) (catalog st) (streams st) o (errlog st).
Definition set_errlog (st : server) l : server :=
  mk_server (transports st) (uuid_draws st) (next_obj st) (catalog st) (streams st) (outbox st) l.

(** [transports: { [sessionId: string]: ... } = {}]: a plain object, so a
    read [this.transports[k]] also finds the members of
    [Object.prototype] (all of them truthy). *)
Inductive slot :=
  | OwnTransport (t : transport)
  | Inherited (member : string).

Definition object_prototype_members : list string :=
  ["constructor"; "__proto__"; "hasOwnProperty"; "isPrototypeOf";
   "propertyIsEnumerable"; "toLocaleString"; "toString"; "valueOf";
   "__defineGetter__"; "__defineSetter__"; "__lookupGetter__"; "__lookupSetter__"].

Definition transports_get (m : gmap string transport) (k : string) : option slot :=
  match m !! k with
  | Some t => Some (OwnTransport t)
  | None => if bool_decide (k ∈ object_prototype_members) then Some (Inherited k) else None
  end.

(** [Object.values(this.transports)] (own enumerable properties). *)
Definition transport_values (m : gmap string transport) : list transport :=
  map snd (map_to_list m).

(* ------------------------------------------------------------------ *)
(** ** HTTP entry points *)

(** The parts of an Express request the handlers read: the
    [mcp-session-id] header and the parsed JSON body. *)
Record request := mk_request { session_header : option string; body : jsval }.

(** [createErrorResponse]'s [JSONRPCError]. *)
Record jsonrpc_error := mk_jerr { err_code : Z; err_message : string; err_id : string }.

Inductive http_response :=
  | JsonResponse (status : Z) (e : jsonrpc_error)   (** [res.status(s).json(e)] *)
  | HandledByTransport (t : transport).             (** the transport answered *)

Definition msg_bad_request : string := "Bad Request: invalid session ID or method.".
Definition msg_internal : string := "Internal server error.".

Definition obj_field (v : jsval) (k : string) : jsval :=
  match get_field v k with Ok x => x | Throw _ => JUndef end.
Definition is_obj (v : jsval) : bool := match v with JObj _ => true | _ => false end.
Definition is_str (v : jsval) : bool := match v with JStr _ => true | _ => false end.

(** The zod checks the SDK's [InitializeRequestSchema] makes (types.ts):
    [z.optional(c)] accepts a missing field or one that passes [c];
    [z.object(...)] accepts only objects (not arrays or [null]) and lets
    other keys through. *)
Definition z_optional (c : jsval -> bool) (v : jsval) : bool :=
  match v with JUndef => true | _ => c v end.
Definition is_bool (v : jsval) : bool := match v with JBool _ => true | _ => false end.

(** [z.number().int()]: a number with an integer value. *)
Definition is_int_number (v : jsval) : bool :=
  match v with
  | JNum _ => true
  | JFrac m e => let '(a, b) := scale2 m 1 (- e) in Z.eqb (Z.modulo a b) 0
  | _ => false
  end.

(** [ProgressTokenSchema = z.union([z.string(), z.number().int()])] *)
Definition is_progress_token (v : jsval) : bool := is_str v || is_int_number v.

(** [RequestMetaSchema]: [{ progressToken?: ProgressToken }]. *)
Definition is_request_meta (v : jsval) : bool :=
  is_obj v && z_optional is_progress_token (obj_field v "progressToken").

(** [ClientCapabilitiesSchema]: [experimental] and [sampling] optional
    objects, [roots] an optional object whose [listChanged] is an optional
    boolean. *)
Definition is_client_capabilities (v : jsval) : bool :=
  is_obj v
  && z_optional is_obj (obj_field v "experimental")
  && z_optional is_obj (obj_field v "sampling")
  && z_optional (fun r => is_obj r && z_optional is_bool (obj_field r "listChanged"))
       (obj_field v "roots").

(** [ImplementationSchema]: string [name] and [version]. *)
Definition is_implementation (v : jsval) : bool :=
  is_obj v && is_str (obj_field v "name") && is_str (obj_field v "version").

(** [InitializeRequestSchema.safeParse(data).success]: [method] is
    ["initialize"]; [params] is an object with an optional [_meta], a
    string [protocolVersion], [capabilities] and [clientInfo]. *)
Definition is_initialize_call (v : jsval) : bool :=
  is_obj v
  && match obj_field v "method" with JStr m => String.eqb m "initialize" | _ => false end
  && (let p := obj_field v "params" in
      is_obj p && z_optional is_request_meta (obj_field p "_meta")
      && is_str (obj_field p "protocolVersion")
      && is_client_capabilities (obj_field p "capabilities")
      && is_implementation (obj_field p "clientInfo")).

Definition isInitializeRequest (b : jsval) : bool :=
  match b with
  | JArr xs => existsb is_initialize_call xs
  | _ => is_initialize_call b
  end.

(** [sessionId] when truthy. *)
Definition truthy_session (h : option string) : option string :=
  match h with
  | Some s => if String.eqb s EmptyString then None else Some s
  | None => None
  end.

Section Dispatch.

(** [crypto.randomUUID()]: the value of the n-th call. *)
Variable randomUUID : nat -> string.
(** [transport.handleRequest(req, res, ...)] on an initialized transport. *)
Variable transport_handle : transport -> request -> result unit.
(** [transport.handleRequest] on a fresh transport: whether it accepted
    the handshake, and so called its [sessionIdGenerator]. *)
Variable transport_init : request -> result bool.
(** [transport.send(...)]: whether the returned promise resolves. *)
Variable transport_send : transport -> notification -> bool.

(** [sendNotification]: calls [transport.send]; the promise is never
    awaited by the callers, so its outcome does not reach them. *)
Definition sendNotification (st : server) (t : transport) (n : notification) : server :=
  set_outbox st (outbox st ++ [(t, n, transport_send t n)]).

Definition createErrorResponse (st : server) (message : string) : server * jsonrpc_error :=
  (set_uuid_draws st (S (uuid_draws st)),
   mk_jerr (-32000)%Z message (randomUUID (uuid_draws st))).

Definition bad_request (st : server) (status : Z) (message : string) : server * http_response :=
  let '(st', e) := createErrorResponse st message in (st', JsonResponse status e).

(** The synchronous part of [streamMessages]: the first notification and
    the interval it sets (its ticks are [stream_tick]). *)
Definition streamMessages (st : server) (t : transport) : server :=
  let st1 := sendNotification st t msg_established in
  set_streams st1 (streams st1 ++ [mk_stream t 0 true]).

Definition handleGetRequest (st : server) (req : request) : result (server * http_response) :=
  match truthy_session (session_header req) with
  | None => Ok (bad_request st 400 msg_bad_request)
  | Some sessionId =>
      match transports_get (transports st) sessionId with
      | None => Ok (bad_request st 400 msg_bad_request)
      | Some (Inherited _) => Throw (TypeError "transport.handleRequest is not a function")
      | Some (OwnTransport t) =>
          _ ← transport_handle t req;
          Ok (streamMessages st t, HandledByTransport t)
      end
  end.

(** The initialize branch of [handlePostRequest]: a new transport whose
    session id, once the handshake is accepted, is the next [randomUUID]. *)
Definition establish (st : server) (req : request) : result (server * http_response) :=
  let t := mk_transport (next_obj st) in
  let st1 := set_next_obj st (S (next_obj st)) in
  match transport_init req with
  | Throw e => Throw e
  | Ok false => Ok (st1, HandledByTransport t)
  | Ok true =>
    let sessionId := randomUUID (uuid_draws st1) in
    let st2 := set_uuid_draws st1 (S (uuid_draws st1)) in
    Ok (if String.eqb sessionId EmptyString then st2
        else set_transports st2 (<[sessionId := t]> (transports st2)),
        HandledByTransport t)
  end.

(** The body of the [try] in [handlePostRequest]. *)
Definition post_try (st : server) (req : request) : result (server * http_response) :=
  match truthy_session (session_header req) with
  | Some sessionId =>
      match transports_get (transports st) sessionId with
      | Some (OwnTransport t) =>
          _ ← transport_handle t req;
          Ok (st, HandledByTransport t)
      | Some (Inherited _) => Throw (TypeError "transport.handleRequest is not a function")
      | None => Ok (bad_request st 400 msg_bad_request)
      end
  | None =>
      if isInitializeRequest (body req) then establish st req
      else Ok (bad_request st 400 msg_bad_request)
  end.

Definition handlePostRequest (st : server) (req : request) : result (server * http_response) :=
  match post_try st req with
  | Ok r => Ok r
  | Throw e =>
      let st1 := set_errlog st (errlog st ++ [e]) in
      Ok (bad_request st1 500 msg_internal)
  end.

(** [setToolSchema]: (re)installs the list-tools handler. *)
Definition setToolSchema (st : server) : server := set_catalog st [getDDLTool].

(** One tick of the 5000 ms [toolInterval]. *)
Definition refresh_tick (st : server) : server :=
  let st1 := setToolSchema st in
  fold_left (fun s t => sendNotification s t list_changed)
            (transport_values (transports st1)) st1.

End Dispatch.

(** The server right after its constructor ran [setupTools]. *)
Definition initial_server : server := setToolSchema (mk_server ∅ 0 0 [] [] [] []).

(** ListToolsRequestSchema handler. *)
Definition list_tools (st : server) : list tool_descriptor := catalog st.

(* ------------------------------------------------------------------ *)
(** ** The interval of [streamMessages] *)

Definition msg_sequence (n : nat) (now : string) : notification :=
  log_info ("Message " +:+ pretty n +:+ " at " +:+ now).

(** One tick of the 1000 ms interval, at time [now]
    ([new Date().toISOString()]); returns the notifications sent.  The
    [try]/[catch] around the sends never fires: [sendNotification] is
    [async] and not awaited, so it does not throw synchronously. *)
Definition stream_tick (now : string) (s : stream_state) : stream_state * list notification :=
  if interval_set s then
    let c := S (messageCount s) in
    let m := msg_sequence c now in
    if Nat.eqb c 2
    then (mk_stream (st_transport s) c false, [m; msg_complete])
    else (mk_stream (st_transport s) c true, [m])
  else (s, []).

Fixpoint stream_ticks (times : list string) (s : stream_state)
  : stream_state * list notification :=
  match times with
  | [] => (s, [])
  | now :: rest =>
      let '(s1, out1) := stream_tick now s in
      let '(s2, out2) := stream_ticks rest s1 in
      (s2, out1 ++ out2)
  end.

(** All notifications of one [streamMessages] run on [t] whose interval
    ticks at [times]. *)
Definition stream_notifications (t : transport) (times : list string) : list notification :=
  msg_established :: snd (stream_ticks times (mk_stream t 0 true)).

(* ------------------------------------------------------------------ *)
(** ** Vocabulary of the statements and concrete inputs *)

(** [args.k] for a JSON arguments object. *)
Definition arg (args : list (string * jsval)) (k : string) : jsval := obj_field (JObj args) k.

(** A value the [database_type] parameter may take under the tool's
    [inputSchema]: a string, or absent/falsy. *)
Definition string_or_falsy (v : jsval) : bool :=
  match v with JStr _ => true | _ => negb (truthy v) end.

Definition is_postgres_name (s : string) : bool :=
  String.eqb (string_lower s) "postgresql" || String.eqb (string_lower s) "postgres".

(** An empty [process.env], a database returning one row, a database
    that refuses connections, and [JSON.stringify] of the rows. *)
Definition env_empty : string -> option string := fun _ => None.
Definition pg_one_row : DBConnectionInfo -> jsval -> result (list column_row) :=
  fun _ _ => Ok [mk_row (JStr "id") (JStr "integer") JNull].
Definition pg_refused : DBConnectionInfo -> jsval -> result (list column_row) :=
  fun _ _ => Throw (Error "connect ECONNREFUSED 127.0.0.1:5432").
Definition json_rows_stub : list column_row -> string := fun _ => "[]".

Definition full_conn_info : jsval :=
  JObj [("host", JStr "localhost"); ("port", JNum 5432); ("user", JStr "u");
        ("password", JStr "p"); ("database", JStr "d")].

(** Session ids [s0], [s1], ...; a transport that answers every request
    or fails; a handshake that is accepted; sends that always succeed. *)
Definition uuid_seq (n : nat) : string := "s" +:+ pretty n.
Definition uuid_constant (n : nat) : string := "3f0c2a1e-0000-4000-8000-000000000000".
Definition handle_ok : transport -> request -> result unit := fun _ _ => Ok tt.
Definition handle_fails : transport -> request -> result unit :=
  fun _ _ => Throw (Error "socket hang up").
Definition init_accepts : request -> result bool := fun _ => Ok true.
Definition init_rejects : request -> result bool := fun _ => Ok false.
Definition send_ok : transport -> notification -> bool := fun _ _ => true.

Definition initialize_body : jsval :=
  JObj [("jsonrpc", JStr "2.0"); ("id", JNum 1); ("method", JStr "initialize");
        ("params", JObj [("protocolVersion", JStr "2025-03-26");
                         ("capabilities", JObj []);
                         ("clientInfo", JObj [("name", JStr "c"); ("version", JStr "1")])])].

(** A server with one session [s0] bound to transport 0. *)
Definition server_one_session : server :=
  set_uuid_draws (set_next_obj (set_transports initial_server {[ "s0" := mk_transport 0 ]}) 1) 1.

(** The arguments object [{ database_type, connection_info, table_name }]. *)
Definition ddl_args (database_type connection_info table_name : jsval)
  : list (string * jsval) :=
  [("database_type", database_type); ("connection_info", connection_info);
   ("table_name", table_name)].

(** [tools/call] of [get_database_table_ddl] with those arguments. *)
Definition ddl_call env pg js (database_type connection_info table_name : jsval)
  : result call_tool_result :=
  call_tool_handler env pg js
    (mk_params getDDLToolName (Some (ddl_args database_type connection_info table_name))).

(** The successful answer of [handleGetDDLTool] for [ddlRows]. *)
Definition ddl_success (js : list column_row -> string) (table_name : jsval)
    (ddlRows : list column_row) : call_tool_result :=
  mk_tool_result ["DDL (columns):" +:+ nl +:+ js ddlRows;
                  "Data Dictionary:" +:+ nl +:+ data_dictionary table_name ddlRows].

(** The checks [handleGetDDLTool] makes before it opens a client: the three
    parameters present, a PostgreSQL [database_type], a complete [conn]. *)
Definition ddl_validated env (args : list (string * jsval)) (c : DBConnectionInfo) : Prop :=
  exists s, arg args "database_type" = JStr s /\ s <> EmptyString
  /\ truthy (arg args "connection_info") = true /\ truthy (arg args "table_name") = true
  /\ is_postgres_name s = true
  /\ conn_of env (arg args "connection_info") = Ok c /\ conn_complete c = true.

Definition env_full : string -> option string := fun k =>
  if String.eqb k "PGPORT" then Some "5432" else Some ("env-" +:+ k).

(* ------------------------------------------------------------------ *)
(** ** Helper lemmas *)

Lemma get_field_obj (fs : list (string * jsval)) (k : string) :
  get_field (JObj fs) k = Ok (obj_field (JObj fs) k).
Proof. unfold obj_field; simpl. by destruct (List.find _ _). Qed.

Lemma get_field_truthy (v : jsval) (k : string) :
  truthy v = true -> get_field v k = Ok (obj_field v k).
Proof.
  intros H. destruct v; simpl in H; try discriminate; try reflexivity.
  apply get_field_obj.
Qed.

Lemma string_app_nonempty (a b : string) :
  a <> EmptyString -> a +:+ b <> EmptyString.
Proof. destruct a as [|c r]; intros H; [by exfalso|]. cbn. discriminate. Qed.

Lemma ddl_error_text_nonempty (e : exn) : String.eqb (ddl_error_text e) EmptyString = false.
Proof.
  apply String.eqb_neq. unfold ddl_error_text, exn_to_string.
  destruct (String.eqb (ex_message e) EmptyString) eqn:E.
  - destruct (ex_message e); [|discriminate]. simpl.
    destruct (ex_kind e); discriminate.
  - apply String.eqb_neq in E. exact E.
Qed.

Lemma conn_of_truthy env (ci : jsval) :
  truthy ci = true ->
  conn_of env ci =
  Ok {| host := js_or (obj_field ci "host") (env_str env "PGHOST");
        port := js_or (obj_field ci "port") (js_Number (env "PGPORT"));
        user := js_or (obj_field ci "user") (env_str env "PGUSER");
        password := js_or (obj_field ci "password") (env_str env "PGPASSWORD");
        database := js_or (obj_field ci "database") (env_str env "PGDATABASE") |}.
Proof. intros H. unfold conn_of. rewrite !get_field_truthy by exact H. reflexivity. Qed.

Lemma call_ddl env pg js args :
  call_tool_handler env pg js (mk_params getDDLToolName (Some args)) = handleGetDDLTool env pg js (JObj args).
Proof. reflexivity. Qed.

Lemma handle_unfold env pg js args :
  handleGetDDLTool env pg js (JObj args) =
  let dt := arg args "database_type" in
  let ci := arg args "connection_info" in
  let tn := arg args "table_name" in
  if negb (truthy dt) || negb (truthy ci) || negb (truthy tn)
  then Ok (mk_tool_result [msg_missing])
  else
    lower ← toLowerCase dt "database_type";
    if negb (String.eqb lower "postgresql") && negb (String.eqb lower "postgres")
    then Ok (mk_tool_result [msg_unsupported dt])
    else
      conn ← conn_of env ci;
      if negb (truthy (host conn)) || negb (truthy (port conn))
         || negb (truthy (user conn)) || negb (truthy (password conn))
         || negb (truthy (database conn))
      then Ok (mk_tool_result [msg_incomplete])
      else
        let '(ddlRows, ddlError) :=
          match pg conn tn with
          | Ok rows => (rows, None)
          | Throw err => ([], Some (ddl_error_text err))
          end in
        match ddlError with
        | Some e =>
            if truthy (JStr e) then Ok (mk_tool_result [msg_failed e])
            else Ok (mk_tool_result
                       ["DDL (columns):" +:+ nl +:+ js ddlRows;
                        "Data Dictionary:" +:+ nl +:+ data_dictionary tn ddlRows])
        | None =>
            Ok (mk_tool_result
                  ["DDL (columns):" +:+ nl +:+ js ddlRows;
                   "Data Dictionary:" +:+ nl +:+ data_dictionary tn ddlRows])
        end.
Proof. unfold handleGetDDLTool. rewrite !get_field_obj. reflexivity. Qed.

Lemma conn_complete_false (c : DBConnectionInfo) :
  conn_complete c = false ->
  negb (truthy (host c)) || negb (truthy (port c)) || negb (truthy (user c))
  || negb (truthy (password c)) || negb (truthy (database c)) = true.
Proof.
  unfold conn_complete.
  destruct (truthy (host c)), (truthy (port c)), (truthy (user c)),
           (truthy (password c)), (truthy (database c)); simpl; congruence.
Qed.

Lemma conn_complete_true (c : DBConnectionInfo) :
  conn_complete c = true ->
  negb (truthy (host c)) || negb (truthy (port c)) || negb (truthy (user c))
  || negb (truthy (password c)) || negb (truthy (database c)) = false.
Proof.
  unfold conn_complete.
  destruct (truthy (host c)), (truthy (port c)), (truthy (user c)),
           (truthy (password c)), (truthy (database c)); simpl; congruence.
Qed.

Lemma unsupported_test (s : string) :
  negb (String.eqb (string_lower s) "postgresql") && negb (String.eqb (string_lower s) "postgres")
  = negb (is_postgres_name s).
Proof.
  unfold is_postgres_name.
  destruct (String.eqb (string_lower s) "postgresql"), (String.eqb (string_lower s) "postgres");
    reflexivity.
Qed.

Ltac case_if :=
  match goal with
  | |- context [if ?b then _ else _] => let E := fresh "E" in destruct b eqn:E
  end.

(* ------------------------------------------------------------------ *)
(** ** The call-tool handler *)

(** C10: for [get_database_table_ddl] with an arguments object in which
    [database_type], [connection_info] or [table_name] is missing or falsy,
    the handler returns the "Missing required parameters" result without
    throwing; with no arguments object at all it throws. *)
Theorem C10_missing_parameters_result env pg js (args : list (string * jsval)) :
  truthy (arg args "database_type") = false \/ truthy (arg args "connection_info") = false
  \/ truthy (arg args "table_name") = false ->
  call_tool_handler env pg js (mk_params getDDLToolName (Some args))
    = Ok (mk_tool_result [msg_missing])
  /\ call_tool_handler env pg js (mk_params getDDLToolName None)
    = Throw (Error "arguments undefined").
Proof.
  intros H. split; [|reflexivity].
  rewrite call_ddl, handle_unfold. cbv zeta.
  destruct H as [H|[H|H]]; rewrite H; simpl; rewrite ?orb_true_r; reflexivity.
Qed.

Lemma C10_missing_parameters_result_witness :
  truthy (arg [("database_type", JStr "postgres"); ("table_name", JStr "users")]
              "connection_info") = false
  /\ call_tool_handler env_empty pg_one_row json_rows_stub
       (mk_params getDDLToolName (Some [("database_type", JStr "postgres"); ("table_name", JStr "users")]))
     = Ok (mk_tool_result [msg_missing])
  /\ call_tool_handler env_empty pg_one_row json_rows_stub (mk_params getDDLToolName None)
     = Throw (Error "arguments undefined").
Proof.
  split; [reflexivity|].
  apply (C10_missing_parameters_result env_empty pg_one_row json_rows_stub
           [("database_type", JStr "postgres"); ("table_name", JStr "users")]).
  right; left; reflexivity.
Defined.

(** C1 (counterexample): an unregistered tool name makes the handler
    throw "Tool not found", which the protocol answers with a JSON-RPC
    error envelope, not a result. *)
Lemma C1_unknown_tool_gets_error_envelope :
  protocol_reply (JNum 7)
    (call_tool_handler env_empty pg_one_row json_rows_stub
       (mk_params "drop_all_tables" (Some [])))
  = EError (JNum 7) InternalError "Tool not found"
  /\ is_result (protocol_reply (JNum 7)
       (call_tool_handler env_empty pg_one_row json_rows_stub
          (mk_params "drop_all_tables" (Some [])))) = false.
Proof. split; reflexivity. Qed.

(** C1 (amended): for a call-tool request with an arguments object and a
    non-empty tool name other than [get_database_table_ddl], the reply is
    the JSON-RPC error envelope [{ code: -32603, message: "Tool not found" }]. *)
Theorem C1_unknown_tool_reply env pg js (rid : jsval) (tool : string)
    (args : list (string * jsval)) :
  tool <> EmptyString -> tool <> getDDLToolName ->
  protocol_reply rid (call_tool_handler env pg js (mk_params tool (Some args)))
  = EError rid InternalError "Tool not found".
Proof.
  intros H1 H2. unfold call_tool_handler; simpl.
  apply String.eqb_neq in H1, H2. rewrite H1, H2. reflexivity.
Qed.

Lemma C1_unknown_tool_reply_witness :
  "drop_all_tables" <> EmptyString /\ "drop_all_tables" <> getDDLToolName
  /\ protocol_reply (JNum 7)
       (call_tool_handler env_empty pg_one_row json_rows_stub
          (mk_params "drop_all_tables" (Some [("x", JNum 1)])))
     = EError (JNum 7) InternalError "Tool not found".
Proof.
  split; [discriminate|]. split; [discriminate|].
  apply C1_unknown_tool_reply; discriminate.
Defined.

(** C6 (code bug): the executor turns its failures into result envelopes
    (an unsupported type, incomplete connection info after the environment
    fallback, a client error, each with its text, and a string or falsy
    [database_type] never gives a JSON-RPC error), except for a truthy
    [database_type] that is not a string: its [toLowerCase()] call throws
    a TypeError outside the [try], and the caller gets the JSON-RPC error
    envelope [{ code: -32603, message: "database_type.toLowerCase is not a
    function" }]. *)
Theorem C6_non_string_database_type_escapes env pg js (rid : jsval)
    (args : list (string * jsval)) :
  let call := call_tool_handler env pg js (mk_params getDDLToolName (Some args)) in
  let dt := arg args "database_type" in
  let ci := arg args "connection_info" in
  let tn := arg args "table_name" in
  (truthy dt = true -> is_str dt = false -> truthy ci = true -> truthy tn = true ->
     protocol_reply rid call
     = EError rid InternalError "database_type.toLowerCase is not a function")
  /\ (string_or_falsy dt = true -> is_result (protocol_reply rid call) = true)
  /\ (forall s, dt = JStr s -> s <> EmptyString -> truthy ci = true -> truthy tn = true ->
        is_postgres_name s = false ->
        call = Ok (mk_tool_result [msg_unsupported (JStr s)]))
  /\ (forall s c, dt = JStr s -> s <> EmptyString -> truthy ci = true -> truthy tn = true ->
        is_postgres_name s = true -> conn_of env ci = Ok c -> conn_complete c = false ->
        call = Ok (mk_tool_result [msg_incomplete]))
  /\ (forall s c err, dt = JStr s -> s <> EmptyString -> truthy ci = true -> truthy tn = true ->
        is_postgres_name s = true -> conn_of env ci = Ok c -> conn_complete c = true ->
        pg c tn = Throw err ->
        call = Ok (mk_tool_result [msg_failed (ddl_error_text err)])).
Proof.
  cbv zeta. rewrite call_ddl, handle_unfold. cbv zeta.
  split; [|split; [|split; [|split]]].
  - intros Ht Hs Ec En. rewrite Ht, Ec, En. simpl.
    destruct (arg args "database_type"); simpl in Ht, Hs; try discriminate; reflexivity.
  - intros Hdt.
    destruct (truthy (arg args "database_type")) eqn:Et; cycle 1.
    { reflexivity. }
    destruct (arg args "database_type") eqn:Ed;
      simpl in Hdt, Et; try discriminate; try (rewrite Et in Hdt; discriminate).
    destruct (truthy (arg args "connection_info")) eqn:Ec; [|reflexivity].
    destruct (truthy (arg args "table_name")) eqn:En; [|reflexivity].
    simpl. case_if; [reflexivity|].
    rewrite (conn_of_truthy env _ Ec). simpl. case_if; [reflexivity|].
    destruct (pg _ _); [reflexivity|]. simpl.
    rewrite ddl_error_text_nonempty. reflexivity.
  - intros s Ed Hne Ec En Hs. rewrite Ed, Ec, En. simpl.
    apply String.eqb_neq in Hne. rewrite Hne. simpl.
    rewrite unsupported_test, Hs. reflexivity.
  - intros s c Ed Hne Ec En Hs Hc Hcc. rewrite Ed, Ec, En. simpl.
    apply String.eqb_neq in Hne. rewrite Hne. simpl.
    rewrite unsupported_test, Hs. simpl. rewrite Hc. simpl.
    rewrite (conn_complete_false c Hcc). reflexivity.
  - intros s c err Ed Hne Ec En Hs Hc Hcc Hpg. rewrite Ed, Ec, En. simpl.
    apply String.eqb_neq in Hne. rewrite Hne. simpl.
    rewrite unsupported_test, Hs. simpl. rewrite Hc. simpl.
    rewrite (conn_complete_true c Hcc), Hpg. simpl.
    rewrite ddl_error_text_nonempty. reflexivity.
Qed.

(** The failing input: [database_type: 5] with the other parameters
    present is answered with a JSON-RPC error, while [database_type:
    "mysql"] is answered with a result. *)
Lemma C6_non_string_database_type_escapes_witness :
  protocol_reply (JNum 3)
    (call_tool_handler env_empty pg_refused json_rows_stub
       (mk_params getDDLToolName
          (Some [("database_type", JNum 5); ("connection_info", full_conn_info);
                 ("table_name", JStr "users")])))
  = EError (JNum 3) InternalError "database_type.toLowerCase is not a function"
  /\ is_result (protocol_reply (JNum 3)
       (call_tool_handler env_empty pg_refused json_rows_stub
          (mk_params getDDLToolName
             (Some [("database_type", JStr "mysql"); ("connection_info", full_conn_info);
                    ("table_name", JStr "users")])))) = true.
Proof.
  split.
  - exact (proj1 (C6_non_string_database_type_escapes env_empty pg_refused json_rows_stub
                    (JNum 3) [("database_type", JNum 5); ("connection_info", full_conn_info);
                              ("table_name", JStr "users")]) eq_refl eq_refl eq_refl eq_refl).
  - exact (proj1 (proj2 (C6_non_string_database_type_escapes env_empty pg_refused json_rows_stub
                    (JNum 3) [("database_type", JStr "mysql"); ("connection_info", full_conn_info);
                              ("table_name", JStr "users")])) eq_refl).
Defined.

(* ------------------------------------------------------------------ *)
(** ** Sessions and the HTTP entry points *)

(** A truthy session id that is neither an own key of [transports] nor a
    member of [Object.prototype] gets the 400 Bad Request envelope from
    both entry points, with the registry unchanged. *)
Lemma unknown_session_bad_request rU th ti ts (st : server) (req : request) (sid : string) :
  truthy_session (session_header req) = Some sid ->
  transports st !! sid = None -> sid ∉ object_prototype_members ->
  handleGetRequest rU th ts st req = Ok (bad_request rU st 400 msg_bad_request)
  /\ handlePostRequest rU th ti st req = Ok (bad_request rU st 400 msg_bad_request).
Proof.
  intros Hs Hn Hp.
  assert (Hg : transports_get (transports st) sid = None).
  { unfold transports_get. rewrite Hn. by rewrite bool_decide_false. }
  unfold handleGetRequest, handlePostRequest, post_try. rewrite Hs, Hg. done.
Qed.

Lemma unknown_session_bad_request_witness :
  truthy_session (session_header (mk_request (Some "s9") JNull)) = Some "s9"
  /\ transports server_one_session !! "s9" = None
  /\ ("s9" ∉ object_prototype_members)
  /\ handlePostRequest uuid_seq handle_ok init_accepts server_one_session (mk_request (Some "s9") JNull)
     = Ok (bad_request uuid_seq server_one_session 400 msg_bad_request).
Proof.
  assert (Hp : "s9" ∉ object_prototype_members) by (apply (bool_decide_unpack _); vm_compute; reflexivity).
  split; [reflexivity|]. split; [reflexivity|]. split; [exact Hp|].
  exact (proj2 (unknown_session_bad_request uuid_seq handle_ok init_accepts send_ok
                  server_one_session (mk_request (Some "s9") JNull) "s9" eq_refl eq_refl Hp)).
Defined.

Lemma truthy_session_some (sid : string) :
  sid <> EmptyString -> truthy_session (Some sid) = Some sid.
Proof.
  intros H. unfold truthy_session. apply String.eqb_neq in H. by rewrite H.
Qed.

(** C5 (code_bug): the session id [constructor] is not in the registry,
    but [this.transports["constructor"]] is [Object] (truthy): GET throws
    a TypeError out of the handler and POST answers 500 Internal server
    error, instead of the 400 Bad Request envelope. *)
Lemma C5_prototype_member_session_id :
  handleGetRequest uuid_seq handle_ok send_ok initial_server
    (mk_request (Some "constructor") JNull)
  = Throw (TypeError "transport.handleRequest is not a function")
  /\ exists st',
     handlePostRequest uuid_seq handle_ok init_accepts initial_server
       (mk_request (Some "constructor") JNull)
     = Ok (st', JsonResponse 500 (mk_jerr (-32000) msg_internal (uuid_seq 0))).
Proof. split; [reflexivity|]. eexists. reflexivity. Qed.

(** C2 (code_bug): [handleGetRequest] has no [try]/[catch]: when the
    session's [transport.handleRequest] rejects, the exception leaves the
    handler unlogged, while [handlePostRequest] on the same input logs it
    and answers 500 Internal server error. *)
Lemma C2_get_exception_escapes :
  handleGetRequest uuid_seq handle_fails send_ok server_one_session
    (mk_request (Some "s0") JNull)
  = Throw (Error "socket hang up")
  /\ exists st',
     handlePostRequest uuid_seq handle_fails init_accepts server_one_session
       (mk_request (Some "s0") JNull)
     = Ok (st', JsonResponse 500 (mk_jerr (-32000) msg_internal (uuid_seq 1)))
     /\ errlog st' = [Error "socket hang up"].
Proof. split; [reflexivity|]. eexists. split; reflexivity. Qed.

(** C9 (code_bug): a POST carrying the stale session id [__proto__] and a
    valid initialize body creates no session, as intended, but is answered
    500 Internal server error instead of 400 Bad Request, because
    [this.transports["__proto__"]] is [Object.prototype]. *)
Lemma C9_proto_session_id_with_initialize :
  exists st',
    handlePostRequest uuid_seq handle_ok init_accepts initial_server
      (mk_request (Some "__proto__") initialize_body)
    = Ok (st', JsonResponse 500 (mk_jerr (-32000) msg_internal (uuid_seq 0)))
    /\ transports st' = ∅
    /\ isInitializeRequest initialize_body = true.
Proof. eexists. split; [reflexivity|]. split; reflexivity. Qed.

(** C4 (counterexample): Establish takes the id from [randomUUID] without
    consulting the registry; should two draws coincide, the second
    initialize call gets an id already registered and its transport
    replaces the first session's. *)
Lemma C4_repeated_uuid_reuses_registered_id :
  exists st1 st2 r1 r2,
    handlePostRequest uuid_constant handle_ok init_accepts initial_server
      (mk_request None initialize_body) = Ok (st1, r1)
    /\ handlePostRequest uuid_constant handle_ok init_accepts st1
      (mk_request None initialize_body) = Ok (st2, r2)
    /\ transports st1 !! uuid_constant 0 = Some (mk_transport 0)
    /\ uuid_constant 1 = uuid_constant 0
    /\ transports st2 !! uuid_constant 1 = Some (mk_transport 1).
Proof. do 4 eexists. repeat split; reflexivity. Qed.

(** C4 (amended): an initialize POST without session id whose handshake
    the transport accepts, and whose [randomUUID] draw is not already a
    key of the registry, registers the new transport under that id; a
    later request carrying the id is forwarded to that transport, and the
    next Establish uses the next draw of [randomUUID]. *)
Theorem C4_establish_registers_fresh_id rU th ti (st st' : server) (req : request)
    (r : http_response) :
  truthy_session (session_header req) = None ->
  isInitializeRequest (body req) = true ->
  ti req = Ok true ->
  rU (uuid_draws st) <> EmptyString ->
  transports st !! rU (uuid_draws st) = None ->
  handlePostRequest rU th ti st req = Ok (st', r) ->
  let t := mk_transport (next_obj st) in
  r = HandledByTransport t
  /\ transports st' = <[rU (uuid_draws st) := t]> (transports st)
  /\ transports_get (transports st') (rU (uuid_draws st)) = Some (OwnTransport t)
  /\ (forall req2, session_header req2 = Some (rU (uuid_draws st)) ->
        post_try rU th ti st' req2 = (_ ← th t req2; Ok (st', HandledByTransport t)))
  /\ uuid_draws st' = S (uuid_draws st).
Proof.
  intros Hs Hi Hti Hne Hfresh Hpost t.
  unfold handlePostRequest, post_try in Hpost. rewrite Hs, Hi in Hpost.
  unfold establish in Hpost. rewrite Hti in Hpost. simpl in Hpost.
  apply String.eqb_neq in Hne as Hne'. rewrite Hne' in Hpost.
  injection Hpost as <- <-.
  assert (Hget : transports_get (<[rU (uuid_draws st) := t]> (transports st)) (rU (uuid_draws st))
                 = Some (OwnTransport t)).
  { unfold transports_get. by rewrite lookup_insert_eq. }
  split; [reflexivity|]. split; [reflexivity|]. split; [exact Hget|]. split; [|reflexivity].
  intros req2 H2. unfold post_try. rewrite H2, truthy_session_some by exact Hne.
  cbn [transports set_uuid_draws set_next_obj set_transports uuid_draws next_obj].
  unfold t in Hget. rewrite Hget. reflexivity.
Qed.

Lemma C4_establish_registers_fresh_id_witness :
  truthy_session (session_header (mk_request None initialize_body)) = None
  /\ isInitializeRequest (body (mk_request None initialize_body)) = true
  /\ init_accepts (mk_request None initialize_body) = Ok true
  /\ uuid_seq (uuid_draws server_one_session) <> EmptyString
  /\ transports server_one_session !! uuid_seq (uuid_draws server_one_session) = None
  /\ transports_get
       (transports (set_uuid_draws (set_next_obj (set_transports server_one_session
          (<[uuid_seq 1 := mk_transport 1]> (transports server_one_session))) 2) 2))
       (uuid_seq 1) = Some (OwnTransport (mk_transport 1)).
Proof.
  split; [reflexivity|]. split; [reflexivity|]. split; [reflexivity|].
  split; [discriminate|]. split; [reflexivity|].
  exact (proj1 (proj2 (proj2 (C4_establish_registers_fresh_id uuid_seq handle_ok init_accepts
           server_one_session
           (set_uuid_draws (set_next_obj (set_transports server_one_session
              (<[uuid_seq 1 := mk_transport 1]> (transports server_one_session))) 2) 2)
           (mk_request None initialize_body) (HandledByTransport (mk_transport 1))
           eq_refl eq_refl eq_refl ltac:(discriminate) eq_refl eq_refl)))).
Defined.

(** C8 (counterexample): a registration under an id that is already a key
    of [transports] is not rejected: the second transport replaces the
    first under the same id. *)
Lemma C8_second_registration_replaces :
  exists st1 st2 r2,
    handlePostRequest uuid_constant handle_ok init_accepts initial_server
      (mk_request None initialize_body) = Ok (st1, HandledByTransport (mk_transport 0))
    /\ handlePostRequest uuid_constant handle_ok init_accepts st1
      (mk_request None initialize_body) = Ok (st2, r2)
    /\ r2 = HandledByTransport (mk_transport 1)
    /\ transports st1 = {[ uuid_constant 0 := mk_transport 0 ]}
    /\ transports st2 = {[ uuid_constant 0 := mk_transport 1 ]}.
Proof. do 3 eexists. repeat split; reflexivity. Qed.

Lemma fold_sendNotification ts (n : notification) (l : list transport) (st : server) :
  fold_left (fun s t => sendNotification ts s t n) l st
  = set_outbox st (outbox st ++ map (fun t => (t, n, ts t n)) l).
Proof.
  revert st. induction l as [|t l IH]; intros st; simpl.
  - destruct st; simpl. by rewrite app_nil_r.
  - rewrite IH. destruct st; unfold sendNotification, set_outbox; simpl.
    by rewrite <- app_assoc.
Qed.

Lemma refresh_tick_eq ts (st : server) :
  refresh_tick ts st
  = set_outbox (setToolSchema st)
      (outbox st ++ map (fun t => (t, list_changed, ts t list_changed))
                        (transport_values (transports st))).
Proof. unfold refresh_tick. rewrite fold_sendNotification. reflexivity. Qed.

(** C8 (amended): the registry maps each session id to one transport; the
    only change any entry point makes to it is Establish's
    [transports[id] = transport] for the drawn id, which adds the id or
    overwrites its previous transport; GET and the catalog refresh leave it
    unchanged, and nothing removes an id. *)
Theorem C8_registry_only_inserts rU th ti ts (st : server) (req : request) :
  (forall st' r, handlePostRequest rU th ti st req = Ok (st', r) ->
     transports st' = transports st
     \/ transports st' = <[rU (uuid_draws st) := mk_transport (next_obj st)]> (transports st))
  /\ (forall st' r, handleGetRequest rU th ts st req = Ok (st', r) ->
        transports st' = transports st)
  /\ transports (refresh_tick ts st) = transports st.
Proof.
  split; [|split].
  - intros st' r H.
    unfold handlePostRequest, post_try, establish, bad_request, createErrorResponse in H.
    unfold mbind, result_bind in H.
    repeat case_match; simplify_eq/=; auto.
  - intros st' r H.
    unfold handleGetRequest, bad_request, createErrorResponse in H.
    unfold mbind, result_bind in H.
    repeat case_match; simplify_eq/=; auto.
  - rewrite refresh_tick_eq. reflexivity.
Qed.

(* ------------------------------------------------------------------ *)
(** ** Catalog refresh *)

(** C7: each tick of the catalog refresh leaves the list-tools answer equal
    to [get_database_table_ddl]'s descriptor and calls [sendNotification]
    with "notifications/tools/list_changed" once for every registry entry,
    whatever the outcome of each [transport.send]. *)
Theorem C7_refresh_broadcasts_once_per_session ts (st : server) :
  let st' := refresh_tick ts st in
  list_tools st' = [getDDLTool]
  /\ tool_name getDDLTool = getDDLToolName
  /\ transports st' = transports st
  /\ outbox st' = outbox st ++ map (fun t => (t, list_changed, ts t list_changed))
                                  (transport_values (transports st))
  /\ (forall id t, transports st !! id = Some t ->
        In (t, list_changed, ts t list_changed) (drop (length (outbox st)) (outbox st')))
  /\ length (outbox st') = length (outbox st) + size (transports st)
  /\ (forall ts2, map (fun x => fst x) (outbox (refresh_tick ts2 st))
                  = map (fun x => fst x) st'.(outbox)).
Proof.
  cbv zeta. rewrite !refresh_tick_eq. cbn [outbox set_outbox list_tools catalog setToolSchema
                                         set_catalog transports].
  split; [reflexivity|]. split; [reflexivity|]. split; [reflexivity|].
  split; [reflexivity|]. split; [|split].
  - intros id t Hid. rewrite drop_app_length.
    apply (in_map (fun t => (t, list_changed, ts t list_changed))). unfold transport_values.
    apply (in_map snd (map_to_list (transports st)) (id, t)).
    apply list_elem_of_In, elem_of_map_to_list. exact Hid.
  - rewrite length_app, length_map. unfold transport_values.
    rewrite length_map, length_map_to_list. reflexivity.
  - intros ts2. rewrite refresh_tick_eq. cbn [outbox set_outbox].
    rewrite !map_app, !map_map. reflexivity.
Qed.

(* ------------------------------------------------------------------ *)
(** ** Notification streaming *)

Lemma stream_ticks_cleared (times : list string) (t : transport) (n : nat) :
  stream_ticks times (mk_stream t n false) = (mk_stream t n false, []).
Proof.
  induction times as [|now times IH]; [reflexivity|].
  simpl. rewrite IH. reflexivity.
Qed.

(** C3: a GET on a registered session starts [streamMessages], which sends
    "SSE Connection established" at once; its interval then sends
    "Message 1 at ..." and "Message 2 at ..." on its first two ticks,
    "Streaming complete!" right after the second, and clears itself, so any
    later ticks send nothing.  Before the second tick the stream has sent a
    prefix of that sequence. *)
Theorem C3_stream_sequence (t : transport) (t1 t2 : string) (rest : list string) :
  stream_notifications t (t1 :: t2 :: rest)
    = [msg_established; msg_sequence 1 t1; msg_sequence 2 t2; msg_complete]
  /\ fst (stream_ticks (t1 :: t2 :: rest) (mk_stream t 0 true)) = mk_stream t 2 false
  /\ stream_notifications t [] = [msg_established]
  /\ stream_notifications t [t1] = [msg_established; msg_sequence 1 t1]
  /\ (forall rU th ts (st st' : server) (req : request) (sid : string) (r : http_response),
        truthy_session (session_header req) = Some sid ->
        transports st !! sid = Some t ->
        th t req = Ok tt ->
        handleGetRequest rU th ts st req = Ok (st', r) ->
        outbox st' = outbox st ++ [(t, msg_established, ts t msg_established)]
        /\ streams st' = streams st ++ [mk_stream t 0 true]).
Proof.
  split; [|split; [|split; [|split]]].
  - unfold stream_notifications. simpl. rewrite stream_ticks_cleared. reflexivity.
  - simpl. rewrite stream_ticks_cleared. reflexivity.
  - reflexivity.
  - reflexivity.
  - intros rU th ts st st' req sid r Hs Ht Hth Hget.
    unfold handleGetRequest, transports_get in Hget. rewrite Hs, Ht, Hth in Hget.
    simpl in Hget. injection Hget as <- _. split; reflexivity.
Qed.

Lemma C3_stream_sequence_witness :
  stream_notifications (mk_transport 0) ["2026-10-15T10:00:01.000Z"; "2026-10-15T10:00:02.000Z";
                                         "2026-10-15T10:00:03.000Z"]
  = [msg_established; msg_sequence 1 "2026-10-15T10:00:01.000Z";
     msg_sequence 2 "2026-10-15T10:00:02.000Z"; msg_complete].
Proof.
  exact (proj1 (C3_stream_sequence (mk_transport 0) "2026-10-15T10:00:01.000Z"
                  "2026-10-15T10:00:02.000Z" ["2026-10-15T10:00:03.000Z"])).
Defined.

(* ------------------------------------------------------------------ *)
(** ** Further properties of handleGetDDLTool *)

Lemma string_app_assoc (a b c : string) : (a +:+ b) +:+ c = a +:+ (b +:+ c).
Proof.
  induction a as [|x a IH]; [reflexivity|].
  change (String x ((a +:+ b) +:+ c) = String x (a +:+ (b +:+ c))). by rewrite IH.
Qed.

(** The column listing of the data dictionary is built row by row: the
    listing of [r1 ++ r2] is the listing of [r1] followed by that of [r2]. *)
Theorem dictionary_lines_app (r1 r2 : list column_row) :
  dictionary_lines (r1 ++ r2) = dictionary_lines r1 +:+ dictionary_lines r2.
Proof.
  induction r1 as [|row r1 IH]; cbn [dictionary_lines app]; [reflexivity|].
  rewrite IH. rewrite !string_app_assoc. reflexivity.
Qed.

(** When the checks pass and the client returns [rows], the answer has
    two texts: the JSON of the rows and the data dictionary. *)
Theorem ddl_success_path env pg js (args : list (string * jsval)) (c : DBConnectionInfo)
    (rows : list column_row) :
  ddl_validated env args c ->
  pg c (arg args "table_name") = Ok rows ->
  call_tool_handler env pg js (mk_params getDDLToolName (Some args))
  = Ok (ddl_success js (arg args "table_name") rows).
Proof.
  intros (s & Ed & Hne & Ec & En & Hs & Hc & Hcc) Hpg.
  rewrite call_ddl, handle_unfold. cbv zeta. rewrite Ed, Ec, En.
  apply String.eqb_neq in Hne. simpl. rewrite Hne. simpl.
  rewrite unsupported_test, Hs. simpl. rewrite Hc. simpl.
  rewrite (conn_complete_true c Hcc), Hpg. reflexivity.
Qed.

Lemma ddl_success_path_witness :
  ddl_validated env_empty (ddl_args (JStr "PostgreSQL") full_conn_info (JStr "users"))
    (mk_conn (JStr "localhost") (JNum 5432) (JStr "u") (JStr "p") (JStr "d"))
  /\ call_tool_handler env_empty pg_one_row json_rows_stub
       (mk_params getDDLToolName (Some (ddl_args (JStr "PostgreSQL") full_conn_info (JStr "users"))))
     = Ok (ddl_success json_rows_stub (JStr "users") [mk_row (JStr "id") (JStr "integer") JNull]).
Proof.
  assert (Hv : ddl_validated env_empty (ddl_args (JStr "PostgreSQL") full_conn_info (JStr "users"))
                 (mk_conn (JStr "localhost") (JNum 5432) (JStr "u") (JStr "p") (JStr "d"))).
  { exists "PostgreSQL". repeat split; try reflexivity. discriminate. }
  split; [exact Hv|].
  exact (ddl_success_path env_empty pg_one_row json_rows_stub _ _ _ Hv eq_refl).
Defined.

(** The database client is only used once the checks pass: if two
    database behaviours give different answers, the arguments passed every
    check of [handleGetDDLTool]. *)
Theorem ddl_db_used_only_after_checks env pg1 pg2 js (args : list (string * jsval)) :
  call_tool_handler env pg1 js (mk_params getDDLToolName (Some args))
  <> call_tool_handler env pg2 js (mk_params getDDLToolName (Some args)) ->
  exists c, ddl_validated env args c.
Proof.
  intros H. rewrite !call_ddl, !handle_unfold in H. cbv zeta in H.
  destruct (arg args "database_type") as [| | | | | | |s| |] eqn:Ed;
    try (exfalso; apply H; reflexivity).
  destruct (truthy (arg args "connection_info")) eqn:Ec;
    [|exfalso; apply H; simpl; rewrite ?andb_false_r, ?orb_true_r; reflexivity].
  destruct (truthy (arg args "table_name")) eqn:En;
    [|exfalso; apply H; simpl; rewrite ?orb_true_r; reflexivity].
  simpl in H. destruct (String.eqb s EmptyString) eqn:Es;
    [exfalso; apply H; reflexivity|].
  simpl in H. rewrite unsupported_test in H.
  destruct (is_postgres_name s) eqn:Hs; [|exfalso; apply H; reflexivity].
  simpl in H. destruct (conn_of env (arg args "connection_info")) as [c|e] eqn:Hc;
    [|exfalso; apply H; reflexivity].
  simpl in H. destruct (conn_complete c) eqn:Hcc.
  - exists c, s. apply String.eqb_neq in Es. repeat split; assumption.
  - rewrite (conn_complete_false c Hcc) in H. exfalso; apply H; reflexivity.
Qed.

Lemma ddl_db_used_only_after_checks_witness :
  call_tool_handler env_empty pg_one_row json_rows_stub
    (mk_params getDDLToolName (Some (ddl_args (JStr "postgres") full_conn_info (JStr "users"))))
  <> call_tool_handler env_empty pg_refused json_rows_stub
    (mk_params getDDLToolName (Some (ddl_args (JStr "postgres") full_conn_info (JStr "users"))))
  /\ exists c, ddl_validated env_empty (ddl_args (JStr "postgres") full_conn_info (JStr "users")) c.
Proof.
  assert (H : call_tool_handler env_empty pg_one_row json_rows_stub
    (mk_params getDDLToolName (Some (ddl_args (JStr "postgres") full_conn_info (JStr "users"))))
  <> call_tool_handler env_empty pg_refused json_rows_stub
    (mk_params getDDLToolName (Some (ddl_args (JStr "postgres") full_conn_info (JStr "users"))))).
  { vm_compute. discriminate. }
  split; [exact H|]. exact (ddl_db_used_only_after_checks _ _ _ _ _ H).
Defined.

Lemma is_postgres_name_nonempty (s : string) :
  is_postgres_name s = true -> String.eqb s EmptyString = false.
Proof. destruct s; [discriminate|reflexivity]. Qed.

Lemma arg_ddl_args (dt ci tn : jsval) :
  arg (ddl_args dt ci tn) "database_type" = dt
  /\ arg (ddl_args dt ci tn) "connection_info" = ci
  /\ arg (ddl_args dt ci tn) "table_name" = tn.
Proof. repeat split; reflexivity. Qed.

Lemma ddl_call_unfold env pg js (dt ci tn : jsval) :
  ddl_call env pg js dt ci tn
  = handleGetDDLTool env pg js (JObj (ddl_args dt ci tn)).
Proof. reflexivity. Qed.

(** [database_type] is compared case-insensitively: two spellings of a
    PostgreSQL name that differ only in letter case ("PostgreSQL",
    "POSTGRES", ...) get the same answer. *)
Theorem postgres_type_case_insensitive env pg js (s1 s2 : string) (ci tn : jsval) :
  string_lower s1 = string_lower s2 -> is_postgres_name s1 = true ->
  ddl_call env pg js (JStr s1) ci tn = ddl_call env pg js (JStr s2) ci tn.
Proof.
  intros Hl H1.
  assert (H2 : is_postgres_name s2 = true) by (unfold is_postgres_name in *; by rewrite <- Hl).
  rewrite !ddl_call_unfold, !handle_unfold. cbv zeta.
  destruct (arg_ddl_args (JStr s1) ci tn) as (-> & -> & ->).
  destruct (arg_ddl_args (JStr s2) ci tn) as (-> & -> & ->). simpl.
  rewrite (is_postgres_name_nonempty s1 H1), (is_postgres_name_nonempty s2 H2). simpl.
  rewrite !unsupported_test, H1, H2. reflexivity.
Qed.

Lemma postgres_type_case_insensitive_witness :
  string_lower "PostgreSQL" = string_lower "POSTGRESQL" /\ is_postgres_name "PostgreSQL" = true
  /\ ddl_call env_empty pg_one_row json_rows_stub (JStr "PostgreSQL") full_conn_info (JStr "users")
     = ddl_call env_empty pg_one_row json_rows_stub (JStr "POSTGRESQL") full_conn_info (JStr "users").
Proof.
  split; [reflexivity|]. split; [reflexivity|].
  apply postgres_type_case_insensitive; reflexivity.
Defined.

(** With no [port] in [connection_info], the port comes from [PGPORT]; when
    that is unset, empty or "0", [Number(...)] is falsy and the answer is
    the "connection info is incomplete" text, whatever the other fields. *)
Theorem missing_port_incomplete env pg js (s : string) (ci tn : jsval) :
  is_postgres_name s = true -> truthy ci = true -> truthy tn = true ->
  truthy (obj_field ci "port") = false ->
  env "PGPORT" = None \/ env "PGPORT" = Some EmptyString \/ env "PGPORT" = Some "0" ->
  ddl_call env pg js (JStr s) ci tn = Ok (mk_tool_result [msg_incomplete]).
Proof.
  intros Hs Hci Htn Hp Henv.
  rewrite ddl_call_unfold, handle_unfold. cbv zeta.
  destruct (arg_ddl_args (JStr s) ci tn) as (-> & -> & ->). simpl.
  rewrite Hci, Htn, (is_postgres_name_nonempty s Hs). simpl.
  rewrite unsupported_test, Hs. simpl.
  rewrite (conn_of_truthy env ci Hci). simpl.
  assert (Hport : truthy (js_or (obj_field ci "port") (js_Number (env "PGPORT"))) = false).
  { unfold js_or. rewrite Hp. by destruct Henv as [-> | [-> | ->]]. }
  rewrite Hport. simpl. rewrite !orb_true_r. reflexivity.
Qed.

Lemma missing_port_incomplete_witness :
  is_postgres_name "postgres" = true /\ truthy (JObj [("host", JStr "db")]) = true
  /\ truthy (JStr "users") = true /\ truthy (obj_field (JObj [("host", JStr "db")]) "port") = false
  /\ (env_empty "PGPORT" = None \/ env_empty "PGPORT" = Some EmptyString
      \/ env_empty "PGPORT" = Some "0")
  /\ ddl_call env_empty pg_one_row json_rows_stub (JStr "postgres") (JObj [("host", JStr "db")])
       (JStr "users") = Ok (mk_tool_result [msg_incomplete]).
Proof.
  do 4 (split; [reflexivity|]). split; [left; reflexivity|].
  apply missing_port_incomplete; try reflexivity. left; reflexivity.
Defined.

(** Fields given in [connection_info] take precedence over the
    environment: when all five are present and truthy, [conn] does not
    depend on [process.env] and is complete. *)
Theorem conn_info_overrides_env env1 env2 (ci : jsval) :
  truthy ci = true ->
  forallb (fun k => truthy (obj_field ci k)) ["host"; "port"; "user"; "password"; "database"] = true ->
  conn_of env1 ci = conn_of env2 ci
  /\ exists c, conn_of env1 ci = Ok c /\ conn_complete c = true.
Proof.
  intros Hci Hall. simpl in Hall.
  destruct (truthy (obj_field ci "host")) eqn:E1, (truthy (obj_field ci "port")) eqn:E2,
           (truthy (obj_field ci "user")) eqn:E3, (truthy (obj_field ci "password")) eqn:E4,
           (truthy (obj_field ci "database")) eqn:E5; try discriminate.
  rewrite !(conn_of_truthy _ ci Hci). unfold js_or. rewrite E1, E2, E3, E4, E5.
  split; [reflexivity|]. eexists. split; [reflexivity|].
  unfold conn_complete; simpl. by rewrite E1, E2, E3, E4, E5.
Qed.

Lemma conn_info_overrides_env_witness :
  truthy full_conn_info = true
  /\ forallb (fun k => truthy (obj_field full_conn_info k))
       ["host"; "port"; "user"; "password"; "database"] = true
  /\ conn_of env_empty full_conn_info = conn_of env_full full_conn_info.
Proof.
  split; [reflexivity|]. split; [reflexivity|].
  exact (proj1 (conn_info_overrides_env env_empty env_full full_conn_info eq_refl eq_refl)).
Defined.

(* ------------------------------------------------------------------ *)
(** ** Further properties of the HTTP entry points *)

(** An empty [mcp-session-id] header counts as no header ([!sessionId]):
    GET answers 400, and an initialize POST with it creates a session. *)
Theorem empty_session_header_is_absent rU th ti ts (st st' : server) (b : jsval)
    (r : http_response) :
  isInitializeRequest b = true -> ti (mk_request (Some EmptyString) b) = Ok true ->
  rU (uuid_draws st) <> EmptyString ->
  handlePostRequest rU th ti st (mk_request (Some EmptyString) b) = Ok (st', r) ->
  transports st' = <[rU (uuid_draws st) := mk_transport (next_obj st)]> (transports st)
  /\ handleGetRequest rU th ts st (mk_request (Some EmptyString) b)
     = Ok (bad_request rU st 400 msg_bad_request).
Proof.
  intros Hi Hti Hne Hpost. split; [|reflexivity].
  unfold handlePostRequest, post_try in Hpost. simpl in Hpost. rewrite Hi in Hpost.
  unfold establish in Hpost. rewrite Hti in Hpost. simpl in Hpost.
  apply String.eqb_neq in Hne. rewrite Hne in Hpost.
  injection Hpost as <- _. reflexivity.
Qed.

Lemma empty_session_header_is_absent_witness :
  isInitializeRequest initialize_body = true
  /\ init_accepts (mk_request (Some EmptyString) initialize_body) = Ok true
  /\ uuid_seq (uuid_draws initial_server) <> EmptyString
  /\ transports (set_uuid_draws (set_next_obj (set_transports initial_server
        {[ uuid_seq 0 := mk_transport 0 ]}) 1) 1)
     = <[uuid_seq 0 := mk_transport 0]> (transports initial_server).
Proof.
  split; [reflexivity|]. split; [reflexivity|]. split; [discriminate|].
  exact (proj1 (empty_session_header_is_absent uuid_seq handle_ok init_accepts send_ok
           initial_server _ initialize_body (HandledByTransport (mk_transport 0))
           eq_refl eq_refl ltac:(discriminate) eq_refl)).
Defined.

(** A POST for a registered session is handed to that session's
    transport whatever the body (an initialize body creates no new
    session); if the transport fails, the error is logged and answered
    500, and the registry is unchanged either way. *)
Theorem post_registered_session rU th ti (st : server) (req : request) (sid : string)
    (t : transport) :
  truthy_session (session_header req) = Some sid -> transports st !! sid = Some t ->
  handlePostRequest rU th ti st req
  = match th t req with
    | Ok _ => Ok (st, HandledByTransport t)
    | Throw e => Ok (bad_request rU (set_errlog st (errlog st ++ [e])) 500 msg_internal)
    end.
Proof.
  intros Hs Ht. unfold handlePostRequest, post_try, transports_get.
  rewrite Hs, Ht. simpl. by destruct (th t req).
Qed.

Lemma post_registered_session_witness :
  truthy_session (session_header (mk_request (Some "s0") initialize_body)) = Some "s0"
  /\ transports server_one_session !! "s0" = Some (mk_transport 0)
  /\ handlePostRequest uuid_seq handle_ok init_accepts server_one_session
       (mk_request (Some "s0") initialize_body)
     = Ok (server_one_session, HandledByTransport (mk_transport 0)).
Proof.
  split; [reflexivity|]. split; [reflexivity|].
  exact (post_registered_session uuid_seq handle_ok init_accepts server_one_session
           (mk_request (Some "s0") initialize_body) "s0" (mk_transport 0) eq_refl eq_refl).
Defined.

(** Without a session id, a POST whose body is not (and does not contain)
    an initialize call, and any GET, get the 400 Bad Request envelope. *)
Theorem no_session_id_bad_request rU th ti ts (st : server) (req : request) :
  truthy_session (session_header req) = None ->
  handleGetRequest rU th ts st req = Ok (bad_request rU st 400 msg_bad_request)
  /\ (isInitializeRequest (body req) = false ->
      handlePostRequest rU th ti st req = Ok (bad_request rU st 400 msg_bad_request)).
Proof.
  intros Hs. unfold handleGetRequest. rewrite Hs. split; [reflexivity|].
  intros Hi. unfold handlePostRequest, post_try. by rewrite Hs, Hi.
Qed.

Lemma no_session_id_bad_request_witness :
  truthy_session (session_header (mk_request None (JArr []))) = None
  /\ handleGetRequest uuid_seq handle_ok send_ok initial_server (mk_request None (JArr []))
     = Ok (bad_request uuid_seq initial_server 400 msg_bad_request).
Proof.
  split; [reflexivity|].
  exact (proj1 (no_session_id_bad_request uuid_seq handle_ok init_accepts send_ok
                  initial_server (mk_request None (JArr [])) eq_refl)).
Defined.

(** A session is only registered when the transport accepts the
    handshake: if [transport.handleRequest] declines it or throws, the
    POST leaves the registry unchanged. *)
Theorem establish_needs_accepted_handshake rU th ti (st st' : server) (req : request)
    (r : http_response) :
  truthy_session (session_header req) = None -> ti req <> Ok true ->
  handlePostRequest rU th ti st req = Ok (st', r) ->
  transports st' = transports st.
Proof.
  intros Hs Hti H.
  unfold handlePostRequest, post_try, establish, bad_request, createErrorResponse in H.
  rewrite Hs in H.
  destruct (isInitializeRequest (body req)); [|by simplify_eq/=].
  destruct (ti req) as [[|]|e]; [congruence| |]; by simplify_eq/=.
Qed.

Lemma establish_needs_accepted_handshake_witness :
  truthy_session (session_header (mk_request None initialize_body)) = None
  /\ init_rejects (mk_request None initialize_body) <> Ok true
  /\ transports (set_next_obj initial_server 1) = transports initial_server.
Proof.
  split; [reflexivity|]. split; [discriminate|].
  exact (establish_needs_accepted_handshake uuid_seq handle_ok init_rejects initial_server
           (set_next_obj initial_server 1) (mk_request None initialize_body)
           (HandledByTransport (mk_transport 0)) eq_refl ltac:(discriminate) eq_refl).
Defined.

(** Every JSON error the entry points write themselves has code -32000,
    the message "Bad Request: invalid session ID or method." with status
    400 or "Internal server error." with status 500, and as id a new
    [randomUUID] draw. *)
Theorem error_envelopes_shape rU th ti ts (st st' : server) (req : request)
    (status : Z) (e : jsonrpc_error) :
  (handlePostRequest rU th ti st req = Ok (st', JsonResponse status e)
   \/ handleGetRequest rU th ts st req = Ok (st', JsonResponse status e)) ->
  err_code e = (-32000)%Z /\ err_id e = rU (uuid_draws st)
  /\ uuid_draws st' = S (uuid_draws st)
  /\ ((status = 400%Z /\ err_message e = msg_bad_request)
      \/ (status = 500%Z /\ err_message e = msg_internal)).
Proof.
  intros [H|H].
  - unfold handlePostRequest, post_try, establish, bad_request, createErrorResponse in H.
    unfold mbind, result_bind in H.
    repeat case_match; simplify_eq/=; eauto 10.
  - unfold handleGetRequest, bad_request, createErrorResponse in H.
    unfold mbind, result_bind in H.
    repeat case_match; simplify_eq/=; eauto 10.
Qed.

Lemma error_envelopes_shape_witness :
  handlePostRequest uuid_seq handle_ok init_accepts initial_server (mk_request None JNull)
    = Ok (set_uuid_draws initial_server 1,
          JsonResponse 400 (mk_jerr (-32000) msg_bad_request (uuid_seq 0)))
  /\ err_id (mk_jerr (-32000) msg_bad_request (uuid_seq 0)) = uuid_seq (uuid_draws initial_server).
Proof.
  assert (H : handlePostRequest uuid_seq handle_ok init_accepts initial_server (mk_request None JNull)
    = Ok (set_uuid_draws initial_server 1,
          JsonResponse 400 (mk_jerr (-32000) msg_bad_request (uuid_seq 0)))) by reflexivity.
  split; [exact H|].
  exact (proj1 (proj2 (error_envelopes_shape uuid_seq handle_ok init_accepts send_ok
           initial_server _ _ _ _ (or_introl H)))).
Defined.

(* ------------------------------------------------------------------ *)
(** ** Catalog, refresh and streaming over time *)

(** The list-tools answer only ever holds [get_database_table_ddl]'s
    descriptor: GET and POST never touch it, and each refresh re-installs
    it; so from the constructed server on it stays that one descriptor. *)
Theorem catalog_stays_ddl_tool rU th ti ts (st : server) (req : request) :
  (forall st' r, handlePostRequest rU th ti st req = Ok (st', r) -> catalog st' = catalog st)
  /\ (forall st' r, handleGetRequest rU th ts st req = Ok (st', r) -> catalog st' = catalog st)
  /\ list_tools (refresh_tick ts st) = [getDDLTool]
  /\ list_tools initial_server = [getDDLTool].
Proof.
  split; [|split; [|split]].
  - intros st' r H.
    unfold handlePostRequest, post_try, establish, bad_request, createErrorResponse in H.
    unfold mbind, result_bind in H.
    repeat case_match; simplify_eq/=; auto.
  - intros st' r H.
    unfold handleGetRequest, streamMessages, sendNotification, bad_request,
      createErrorResponse in H.
    unfold mbind, result_bind in H.
    repeat case_match; simplify_eq/=; auto.
  - rewrite refresh_tick_eq. reflexivity.
  - reflexivity.
Qed.

(** After [k] ticks of the refresh timer with an unchanged registry, the
    number of sent notifications has grown by [k] times the number of
    registered sessions. *)
Theorem refresh_ticks_send_count ts (k : nat) (st : server) :
  transports (Nat.iter k (refresh_tick ts) st) = transports st
  /\ length (outbox (Nat.iter k (refresh_tick ts) st))
     = length (outbox st) + k * size (transports st).
Proof.
  induction k as [|k [IHt IHl]]; simpl; [split; [reflexivity|lia]|].
  rewrite refresh_tick_eq. cbn [transports set_outbox setToolSchema set_catalog outbox].
  split; [exact IHt|].
  rewrite length_app, length_map, IHl, IHt. unfold transport_values.
  rewrite length_map, length_map_to_list. lia.
Qed.

(** A [streamMessages] run sends at most two numbered messages: after
    [n] ticks its counter is [min n 2], and it has sent
    [1 + min n 2] notifications, plus the completion one once [n >= 2]. *)
Theorem stream_counter_bounded (t : transport) (times : list string) :
  messageCount (fst (stream_ticks times (mk_stream t 0 true))) = Nat.min (length times) 2
  /\ length (stream_notifications t times)
     = 1 + Nat.min (length times) 2 + (if (2 <=? length times)%nat then 1 else 0).
Proof.
  unfold stream_notifications.
  destruct times as [|t1 [|t2 rest]]; [split; reflexivity|split; reflexivity|].
  simpl. rewrite stream_ticks_cleared. simpl. rewrite Nat.min_0_r. split; reflexivity.
Qed.
